(** * kurobbs_auto_checkin: the check-in orchestrator of [auto_checkin.py]

    A shallow embedding of [auto_checkin.py].  The client object and the
    process it runs in (HTTP requests issued, log records, push
    notifications) are an explicit state; a method is a state transformer
    that either returns a value or raises a Python exception.  The remote
    API is an oracle that answers a request knowing the requests issued
    before it. *)

From Stdlib Require Import ZArith String List Ascii Bool DecimalString Lia.
Import ListNotations.
Open Scope string_scope.
Open Scope Z_scope.

Set Warnings "-register-all".

(** ** Python values *)

(** [Any] as produced by decoding a JSON body. *)
Inductive pyval : Type :=
| PyNone
| PyBool (b : bool)
| PyInt (z : Z)
| PyFloat (literal : string)
| PyStr (s : string)
| PyList (elems : list pyval)
| PyDict (items : list (string * pyval)).

Definition type_name (v : pyval) : string :=
  match v with
  | PyNone => "NoneType"
  | PyBool _ => "bool"
  | PyInt _ => "int"
  | PyFloat _ => "float"
  | PyStr _ => "str"
  | PyList _ => "list"
  | PyDict _ => "dict"
  end.

(** [str(n)] for an [int]. *)
Definition str_int (n : Z) : string := NilZero.string_of_int (Z.to_int n).

(** [f"{n:02d}"]: the sign counts in the width, so only 0..9 are padded. *)
Definition fmt_02d (n : Z) : string :=
  let s := str_int n in
  if (String.length s <? 2)%nat then "0" ++ s else s.

(** [sep.join(parts)]. *)
Definition join (sep : string) (parts : list string) : string :=
  String.concat sep parts.

(** Truthiness of a [str] and of an [Optional[bool]]. *)
Definition truthy_str (s : string) : bool :=
  match s with EmptyString => false | String _ _ => true end.

Definition truthy_flag (f : option bool) : bool :=
  match f with Some true => true | _ => false end.

Definition truthy_list {A : Type} (l : list A) : bool :=
  match l with [] => false | _ :: _ => true end.

(** ** Exceptions *)

Inductive exn : Type :=
| KurobbsClientException (m : string)
| RequestException (m : string)
| ValidationError (m : string)
| AttributeError (m : string)
| IndexError (m : string).

(** [str(e)]. *)
Definition str_exn (e : exn) : string :=
  match e with
  | KurobbsClientException m
  | RequestException m
  | ValidationError m
  | AttributeError m
  | IndexError m => m
  end.

Definition is_client_error (e : exn) : bool :=
  match e with KurobbsClientException _ => true | _ => false end.

Inductive res (A : Type) : Type :=
| Ok (a : A)
| Raise (e : exn).
Arguments Ok {A} a.
Arguments Raise {A} e.

(** ** Dictionaries *)

(** [d[k] = v] on an insertion-ordered [dict]: an existing key keeps its
    place, a new key goes last. *)
Fixpoint dict_setitem {V : Type} (k : string) (v : V) (d : list (string * V))
  : list (string * V) :=
  match d with
  | [] => [(k, v)]
  | (k', v') :: d' =>
      if String.eqb k' k then (k', v) :: d'
      else (k', v') :: dict_setitem k v d'
  end.

Definition dict_values {V : Type} (d : list (string * V)) : list V :=
  map snd d.

Fixpoint dict_lookup {V : Type} (k : string) (d : list (string * V)) : option V :=
  match d with
  | [] => None
  | (k', v) :: d' => if String.eqb k' k then Some v else dict_lookup k d'
  end.

(** [d.get(k, default)] on a [dict]. *)
Definition dict_get {V : Type} (k : string) (default : V)
           (d : list (string * V)) : V :=
  match dict_lookup k d with Some v => v | None => default end.

(** [o.get(k, default)] on an [Any]: only a [dict] has the method. *)
Definition py_get (o : pyval) (k : string) (default : pyval) : res pyval :=
  match o with
  | PyDict items => Ok (dict_get k default items)
  | _ =>
      Raise (AttributeError
               ("'" ++ type_name o ++ "' object has no attribute 'get'"))
  end.

(** [l[0]]. *)
Definition py_index0 (l : list pyval) : res pyval :=
  match l with
  | x :: _ => Ok x
  | [] => Raise (IndexError "list index out of range")
  end.

(** ** The response envelope *)

Module Response.

Record t : Type := mk {
  code : Z;
  msg : string;
  success : option bool;
  data : pyval
}.

End Response.

(** ** Requests, log records and the process state *)

Record request : Type := mkRequest {
  url : string;
  headers : list (string * option string);
  form : list (string * pyval)
}.

(** What a POST can come back with: a decoded envelope, a transport
    failure of [requests.post], or a body [model_validate_json] rejects. *)
Inductive reply : Type :=
| Replied (r : Response.t)
| Unreachable (m : string)
| Malformed (m : string).

Inductive level : Type := DEBUG | INFO | ERROR.

Record log_record : Type := mkLog { lvl : level; text : string }.

(** The process: requests posted (oldest first), records that reached the
    log sink, whether the sink lets DEBUG records through, and the messages
    handed to the notifier. *)
Record proc : Type := mkProc {
  posted : list request;
  logged : list log_record;
  sink_debug : bool;
  barks : list string
}.

(** The fields of a [KurobbsClient] instance. *)
Record client : Type := mkClient {
  token : option string;
  result : list (string * string);
  exceptions : list exn
}.

Record state : Type := mkState { self : client; io : proc }.

Definition M (A : Type) : Type := state -> res A * state.

Definition ret {A : Type} (a : A) : M A := fun s => (Ok a, s).

Definition raise {A : Type} (e : exn) : M A := fun s => (Raise e, s).

Definition bind {A B : Type} (m : M A) (k : A -> M B) : M B :=
  fun s =>
    match m s with
    | (Ok a, s') => k a s'
    | (Raise e, s') => (Raise e, s')
    end.

Notation "x <- m ;; k" := (bind m (fun x => k))
  (at level 61, m at next level, right associativity).
Notation "m ;;; k" := (bind m (fun _ => k))
  (at level 61, right associativity).

Definition lift {A : Type} (r : res A) : M A := fun s => (r, s).

Definition get_self : M client := fun st => (Ok (self st), st).

(** [try: body / except KurobbsClientException as e: handler] where the
    handler returns from the enclosing function and [rest] is the code
    after the statement. *)
Definition try_except_client {A B : Type}
           (body : M A) (handler : exn -> M B) (rest : A -> M B) : M B :=
  fun s =>
    match body s with
    | (Ok a, s') => rest a s'
    | (Raise e, s') =>
        if is_client_error e then handler e s' else (Raise e, s')
    end.

(** [logger.debug], [logger.info], [logger.error]: a record reaches the
    sink unless it is a DEBUG record and the sink is at INFO. *)
Definition reaches_sink (debug_on : bool) (l : level) : bool :=
  match l with DEBUG => debug_on | INFO | ERROR => true end.

Definition emit (l : level) (s : string) (p : proc) : proc :=
  if reaches_sink (sink_debug p) l
  then mkProc (posted p) (logged p ++ [mkLog l s]) (sink_debug p) (barks p)
  else p.

Definition logger (l : level) (s : string) : M unit :=
  fun st => (Ok tt, mkState (self st) (emit l s (io st))).

(** [self.exceptions.append(e)]. *)
Definition append_exception (e : exn) : M unit :=
  fun st =>
    (Ok tt,
     mkState (mkClient (token (self st)) (result (self st))
                       (exceptions (self st) ++ [e]))
             (io st)).

(** [self.result[k] = v]. *)
Definition set_result (k v : string) : M unit :=
  fun st =>
    (Ok tt,
     mkState (mkClient (token (self st))
                       (dict_setitem k v (result (self st)))
                       (exceptions (self st)))
             (io st)).

(** Modelled from the spec: [ext_bark.send_bark_notification], the
    notifier, which is not part of [auto_checkin.py].  The spec gives it one
    operation, notify(message), fire-and-forget: the message is handed over
    and the call returns. *)
Definition send_bark_notification (m : string) : M unit :=
  fun st =>
    let p := io st in
    (Ok tt,
     mkState (self st)
             (mkProc (posted p) (logged p) (sink_debug p) (barks p ++ [m]))).

(** ** The client *)

Module KurobbsClient.

Definition FIND_ROLE_LIST_API_URL : string :=
  "https://api.kurobbs.com/user/role/findRoleList".
Definition SIGN_URL : string :=
  "https://api.kurobbs.com/encourage/signIn/v2".
Definition USER_SIGN_URL : string :=
  "https://api.kurobbs.com/user/signIn".

(** [__init__]. *)
Definition init (tok : option string) : client := mkClient tok [] [].

Definition get_headers (c : client) : list (string * option string) :=
  [ ("osversion", Some "Android");
    ("devcode", Some "2fba3859fe9bfe9099f2696b8648c2c6");
    ("countrycode", Some "CN");
    ("ip", Some "10.0.2.233");
    ("model", Some "2211133C");
    ("source", Some "android");
    ("lang", Some "zh-Hans");
    ("version", Some "1.0.9");
    ("versioncode", Some "1090");
    ("token", token c);
    ("content-type", Some "application/x-www-form-urlencoded; charset=utf-8");
    ("accept-encoding", Some "gzip");
    ("user-agent", Some "okhttp/3.10.0") ].

(** The [msg] property. *)
Definition msg (c : client) : string :=
  join ", " (dict_values (result c)) ++ "!".

Section Methods.

(** The remote API: the answer to a request, given the requests posted
    before it. *)
Variable server : list request -> request -> reply.
(** [datetime.now(ZoneInfo('Asia/Shanghai')).month]. *)
Variable beijing_month : Z.
(** [model_dump_json(indent=2, exclude={"data"})] of an envelope: a
    function of the three fields that are left. *)
Variable dump_json : Z -> string -> option bool -> string.

(** [requests.post] followed by [Response.model_validate_json]. *)
Definition post (rq : request) : M Response.t :=
  fun st =>
    let p := io st in
    let st' :=
      mkState (self st)
              (mkProc (posted p ++ [rq]) (logged p) (sink_debug p) (barks p))
    in
    match server (posted p) rq with
    | Replied r => (Ok r, st')
    | Unreachable m => (Raise (RequestException m), st')
    | Malformed m => (Raise (ValidationError m), st')
    end.

Definition make_request (u : string) (d : list (string * pyval))
  : M Response.t :=
  c <- get_self ;;
  r <- post (mkRequest u (get_headers c) d) ;;
  logger DEBUG
         (dump_json (Response.code r) (Response.msg r) (Response.success r)) ;;;
  ret r.

Definition get_user_game_list (game_id : Z) : M (list pyval) :=
  r <- make_request FIND_ROLE_LIST_API_URL [("gameId", PyInt game_id)] ;;
  if negb (Response.code r =? 200) then
    raise (KurobbsClientException
             ("API 请求失败: " ++ Response.msg r ++ " (code: "
                               ++ str_int (Response.code r) ++ ")"))
  else
    match Response.data r with
    | PyList l =>
        if (List.length l =? 0)%nat then
          raise (KurobbsClientException
                   "未找到游戏角色信息，请检查是否绑定角色")
        else ret l
    | _ =>
        raise (KurobbsClientException
                 "未找到游戏角色信息，请检查是否绑定角色")
    end.

(** The form [checkin] builds from the role it picked. *)
Definition checkin_form (first_role : pyval) : res (list (string * pyval)) :=
  match py_get first_role "gameId" (PyInt 2) with
  | Raise e => Raise e
  | Ok g =>
      match py_get first_role "serverId" PyNone with
      | Raise e => Raise e
      | Ok sv =>
          match py_get first_role "roleId" PyNone with
          | Raise e => Raise e
          | Ok ro =>
              match py_get first_role "userId" PyNone with
              | Raise e => Raise e
              | Ok us =>
                  Ok [ ("gameId", g); ("serverId", sv); ("roleId", ro);
                       ("userId", us);
                       ("reqMonth", PyStr (fmt_02d beijing_month)) ]
              end
          end
      end
  end.

Definition checkin : M Response.t :=
  try_except_client
    (user_game_list <- get_user_game_list 3 ;;
     lift (py_index0 user_game_list))
    (fun e =>
       append_exception e ;;;
       ret (Response.mk (-1) (str_exn e) None PyNone))
    (fun first_role =>
       d <- lift (checkin_form first_role) ;;
       make_request SIGN_URL d).

Definition sign_in : M Response.t :=
  make_request USER_SIGN_URL [("gameId", PyInt 2)].

Definition _process_sign_action
           (action_name : string) (action_method : M Response.t)
           (success_message failure_message : string) : M unit :=
  resp <- action_method ;;
  if truthy_flag (Response.success resp)
  then set_result action_name success_message
  else append_exception (KurobbsClientException failure_message).

Definition _log : M unit :=
  c <- get_self ;;
  (if truthy_str (msg c) then logger INFO (msg c) else ret tt) ;;;
  c' <- get_self ;;
  if truthy_list (exceptions c')
  then raise (KurobbsClientException
                (join ", " (map str_exn (exceptions c'))))
  else ret tt.

Definition start : M unit :=
  _process_sign_action "checkin" checkin
                       "签到奖励签到成功" "签到奖励签到失败" ;;;
  _process_sign_action "sign_in" sign_in
                       "社区签到成功" "社区签到失败" ;;;
  _log.

End Methods.

End KurobbsClient.

(** ** The entry point *)

(** [configure_logger]: the sink is replaced by one at DEBUG or INFO. *)
Definition configure_logger (debug : bool) (p : proc) : proc :=
  mkProc (posted p) (logged p) debug (barks p).

(** [os.getenv("DEBUG", False)] used as a condition. *)
Definition truthy_env (v : option string) : bool :=
  match v with Some s => truthy_str s | None => false end.

Section Main.

Variable server : list request -> request -> reply.
Variable beijing_month : Z.
Variable dump_json : Z -> string -> option bool -> string.

(** The body of the [try] of [main]. *)
Definition main_try : M unit :=
  KurobbsClient.start server beijing_month dump_json ;;;
  kurobbs <- get_self ;;
  if truthy_str (KurobbsClient.msg kurobbs)
  then send_bark_notification (KurobbsClient.msg kurobbs)
  else ret tt.

(** [main], from the values of TOKEN and DEBUG in the environment: the exit
    status of the process (0 when [main] returns, 1 for [sys.exit(1)]) and
    the state it ends in. *)
Definition main (env_TOKEN env_DEBUG : option string) (p : proc)
  : Z * state :=
  let p0 := configure_logger (truthy_env env_DEBUG) p in
  match main_try (mkState (KurobbsClient.init env_TOKEN) p0) with
  | (Ok _, st) => (0, st)
  | (Raise e, st) =>
      if is_client_error e then
        (1, snd ((logger ERROR (str_exn e) ;;;
                  send_bark_notification "签到任务失败!") st))
      else
        (1, snd (logger ERROR
                        ("An unexpected error occurred: " ++ str_exn e) st))
  end.

End Main.

(** A process that has not posted, logged or notified anything; the
    logging library starts with a sink at DEBUG. *)
Definition fresh_proc : proc := mkProc [] [] true [].

(** ** Scripted servers *)

(** A server that answers by endpoint, whatever happened before. *)
Definition scripted (lookup reward signin : reply)
  : list request -> request -> reply :=
  fun _ rq =>
    if String.eqb (url rq) KurobbsClient.FIND_ROLE_LIST_API_URL then lookup
    else if String.eqb (url rq) KurobbsClient.SIGN_URL then reward
    else signin.

Definition plain_dump (c : Z) (m : string) (s : option bool) : string :=
  str_int c ++ " " ++ m.

Definition envelope (c : Z) (ok : option bool) (d : pyval) : reply :=
  Replied (Response.mk c "ok" ok d).

Definition role (game server_id role_id user_id : Z) : pyval :=
  PyDict [ ("gameId", PyInt game); ("serverId", PyInt server_id);
           ("roleId", PyInt role_id); ("userId", PyInt user_id) ].

Definition two_roles : pyval := PyList [role 2 11 12 13; role 3 21 22 23].

Definition granted : reply := envelope 200 (Some true) PyNone.
Definition refused : reply := envelope 200 (Some false) PyNone.

Definition all_good : list request -> request -> reply :=
  scripted (envelope 200 None two_roles) granted granted.

Definition sign_in_refused : list request -> request -> reply :=
  scripted (envelope 200 None two_roles) granted refused.

Definition lookup_refused : list request -> request -> reply :=
  scripted (envelope 500 None PyNone) granted granted.

Definition no_roles : list request -> request -> reply :=
  scripted (envelope 200 None (PyList [])) granted granted.

Definition demo_state : state :=
  mkState (KurobbsClient.init (Some "token")) fresh_proc.

(** A client that has been run before and kept an error. *)
Definition stale_state : state :=
  mkState (mkClient (Some "token") [("checkin", "签到奖励签到成功")]
                    [KurobbsClientException "社区签到失败"])
          fresh_proc.

Definition lookup_unreachable : list request -> request -> reply :=
  scripted (Unreachable "connection timed out") granted granted.

Definition odd_roles : list request -> request -> reply :=
  scripted (envelope 200 None (PyList [PyInt 7])) granted granted.


(** ** Vocabulary of the statements *)

Definition headers_of (tok : option string) : list (string * option string) :=
  KurobbsClient.get_headers (KurobbsClient.init tok).

Definition lookup_request (tok : option string) (game_id : Z) : request :=
  mkRequest KurobbsClient.FIND_ROLE_LIST_API_URL (headers_of tok)
            [("gameId", PyInt game_id)].

Definition reward_request (tok : option string) (d : list (string * pyval))
  : request :=
  mkRequest KurobbsClient.SIGN_URL (headers_of tok) d.

Definition sign_in_request (tok : option string) : request :=
  mkRequest KurobbsClient.USER_SIGN_URL (headers_of tok)
            [("gameId", PyInt 2)].

(** The process once [rq] has left. *)
Definition after_post (rq : request) (p : proc) : proc :=
  mkProc (posted p ++ [rq]) (logged p) (sink_debug p) (barks p).

(** The state once [rq] has been answered by the envelope [r], whose dump
    is [line]. *)
Definition answered (rq : request) (line : string) (st : state) : state :=
  mkState (self st) (emit DEBUG line (after_post rq (io st))).

Definition with_exception (e : exn) (st : state) : state :=
  mkState (mkClient (token (self st)) (result (self st))
                    (exceptions (self st) ++ [e]))
          (io st).

Definition with_result (k v : string) (st : state) : state :=
  mkState (mkClient (token (self st)) (dict_setitem k v (result (self st)))
                    (exceptions (self st)))
          (io st).

Definition ends_with_bang (s : string) : Prop :=
  exists pre, s = pre ++ "!".

Definition api_failed (r : Response.t) : string :=
  "API 请求失败: " ++ Response.msg r ++ " (code: "
                    ++ str_int (Response.code r) ++ ")".

Definition no_role_found : string :=
  "未找到游戏角色信息，请检查是否绑定角色".

Definition checkin_ok : string := "签到奖励签到成功".
Definition checkin_failed : string := "签到奖励签到失败".
Definition sign_in_ok : string := "社区签到成功".
Definition sign_in_failed : string := "社区签到失败".

(** The success messages two envelopes leave behind, in the order the
    actions run. *)
Definition recorded (r1 r2 : Response.t) : list string :=
  (if truthy_flag (Response.success r1) then [checkin_ok] else [])
    ++ (if truthy_flag (Response.success r2) then [sign_in_ok] else []).

(** The DEBUG line [make_request] writes for an envelope. *)
Definition dump_of (dump_json : Z -> string -> option bool -> string)
           (r : Response.t) : string :=
  dump_json (Response.code r) (Response.msg r) (Response.success r).

(** What no method of the client touches: the token, the notifications
    and the level of the log sink. *)
Definition frame (st : state) : option string * list string * bool :=
  (token (self st), barks (io st), sink_debug (io st)).

Definition keeps {A X : Type} (f : state -> X) (m : M A) : Prop :=
  forall st, f (snd (m st)) = f st.

(** The state a computation ends in is related by [R] to the one it
    started in. *)
Definition follows {A : Type} (R : state -> state -> Prop) (m : M A) : Prop :=
  forall st, R st (snd (m st)).

(** The error collection only gets longer. *)
Definition grows (st st' : state) : Prop :=
  exists es, exceptions (self st') = (exceptions (self st) ++ es)%list.

(** The log only gets longer, and with the sink at INFO no DEBUG record is
    added. *)
Definition log_extends (st st' : state) : Prop :=
  sink_debug (io st') = sink_debug (io st)
  /\ exists new,
      logged (io st') = (logged (io st) ++ new)%list
      /\ (sink_debug (io st) = false ->
          Forall (fun r => lvl r <> DEBUG) new).




(** Reading a decimal numeral back. *)
Definition decode_decimal (s : string) : option Z :=
  option_map Z.of_int (NilZero.int_of_string s).

(** * Properties *)

Section Run.

Variable server : list request -> request -> reply.
Variable beijing_month : Z.
Variable dump_json : Z -> string -> option bool -> string.

Local Abbreviation make_request := (KurobbsClient.make_request server dump_json).
Local Abbreviation get_user_game_list :=
  (KurobbsClient.get_user_game_list server dump_json).
Local Abbreviation checkin_form := (KurobbsClient.checkin_form beijing_month).
Local Abbreviation checkin :=
  (KurobbsClient.checkin server beijing_month dump_json).
Local Abbreviation sign_in := (KurobbsClient.sign_in server dump_json).
Local Abbreviation start := (KurobbsClient.start server beijing_month dump_json).
Local Abbreviation _process_sign_action := KurobbsClient._process_sign_action.
Local Abbreviation _log := KurobbsClient._log.
Local Abbreviation msg := KurobbsClient.msg.
Local Abbreviation dump := (dump_of dump_json).

Lemma get_headers_token (c : client) :
  KurobbsClient.get_headers c = headers_of (token c).
Proof. reflexivity. Qed.

(** What one request does, by the answer it gets. *)
Lemma make_request_eq (u : string) (d : list (string * pyval)) (st : state) :
  let rq := mkRequest u (headers_of (token (self st))) d in
  make_request u d st =
  match server (posted (io st)) rq with
  | Replied r => (Ok r, answered rq (dump r) st)
  | Unreachable m =>
      (Raise (RequestException m), mkState (self st) (after_post rq (io st)))
  | Malformed m =>
      (Raise (ValidationError m), mkState (self st) (after_post rq (io st)))
  end.
Proof.
  cbv zeta. unfold KurobbsClient.make_request, bind, get_self,
    KurobbsClient.post.
  cbn [self io]. rewrite get_headers_token.
  destruct (server _ _); reflexivity.
Qed.

Lemma emit_frame (l : level) (s : string) (p : proc) :
  posted (emit l s p) = posted p
  /\ sink_debug (emit l s p) = sink_debug p
  /\ barks (emit l s p) = barks p.
Proof. unfold emit. destruct (reaches_sink _ _); auto. Qed.

Lemma emit_visible (l : level) (s : string) (p : proc) :
  l <> DEBUG -> logged (emit l s p) = (logged p ++ [mkLog l s])%list.
Proof. unfold emit. destruct l; cbn; congruence. Qed.

Lemma make_request_raise (u : string) (d : list (string * pyval))
      (st st' : state) (e : exn) :
  make_request u d st = (Raise e, st') ->
  exists m, e = RequestException m \/ e = ValidationError m.
Proof.
  rewrite make_request_eq. cbv zeta.
  destruct (server _ _); intros H; inversion H; eauto.
Qed.

Lemma make_request_self (u : string) (d : list (string * pyval))
      (st : state) :
  self (snd (make_request u d st)) = self st.
Proof.
  rewrite make_request_eq. cbv zeta. destruct (server _ _); reflexivity.
Qed.

(** The lookup, by the answer it gets. *)
Lemma get_user_game_list_eq (game_id : Z) (st : state) :
  let rq := lookup_request (token (self st)) game_id in
  get_user_game_list game_id st =
  match server (posted (io st)) rq with
  | Replied r =>
      let st' := answered rq (dump r) st in
      if negb (Response.code r =? 200) then
        (Raise (KurobbsClientException (api_failed r)), st')
      else
        match Response.data r with
        | PyList (x :: l) => (Ok (x :: l), st')
        | _ => (Raise (KurobbsClientException no_role_found), st')
        end
  | Unreachable m =>
      (Raise (RequestException m), mkState (self st) (after_post rq (io st)))
  | Malformed m =>
      (Raise (ValidationError m), mkState (self st) (after_post rq (io st)))
  end.
Proof.
  cbv zeta.
  unfold KurobbsClient.get_user_game_list, bind.
  rewrite make_request_eq. cbv zeta.
  unfold lookup_request.
  destruct (server _ _) as [r | m | m]; try reflexivity.
  destruct (negb (Response.code r =? 200)); try reflexivity.
  destruct (Response.data r) as [ | | | | | [ | x l] | ]; reflexivity.
Qed.

(** The reward check-in, by what the lookup did. *)
Lemma checkin_eq (st : state) :
  checkin st =
  match get_user_game_list 3 st with
  | (Ok (x :: _), st1) =>
      (d <- lift (checkin_form x) ;;
       make_request KurobbsClient.SIGN_URL d) st1
  | (Ok [], st1) => (Raise (IndexError "list index out of range"), st1)
  | (Raise e, st1) =>
      if is_client_error e
      then (Ok (Response.mk (-1) (str_exn e) None PyNone),
            with_exception e st1)
      else (Raise e, st1)
  end.
Proof.
  unfold KurobbsClient.checkin, try_except_client.
  unfold bind at 1.
  destruct (get_user_game_list 3 st) as [[[ | x l] | e] st1]; reflexivity.
Qed.

Lemma get_user_game_list_nonempty (game_id : Z) (st st' : state)
      (l : list pyval) :
  get_user_game_list game_id st = (Ok l, st') -> l <> [].
Proof.
  rewrite get_user_game_list_eq. cbv zeta.
  destruct (server _ _) as [r | m | m]; try discriminate.
  destruct (negb (Response.code r =? 200)); try discriminate.
  destruct (Response.data r) as [ | | | | | [ | x l'] | ]; try discriminate.
  intros H. inversion H. discriminate.
Qed.

Lemma get_user_game_list_raise (game_id : Z) (st st' : state) (e : exn) :
  get_user_game_list game_id st = (Raise e, st') ->
  exists m,
    e = KurobbsClientException m \/ e = RequestException m
    \/ e = ValidationError m.
Proof.
  rewrite get_user_game_list_eq. cbv zeta.
  destruct (server _ _) as [r | m | m];
    try (intros H; inversion H; eauto; fail).
  destruct (negb (Response.code r =? 200));
    try (intros H; inversion H; eauto; fail).
  destruct (Response.data r) as [ | | | | | [ | x l'] | ];
    intros H; inversion H; eauto.
Qed.

Lemma checkin_form_raise (x : pyval) (e : exn) :
  checkin_form x = Raise e ->
  exists m, e = AttributeError m.
Proof.
  destruct x; cbn; intros H; inversion H; eauto.
Qed.

(** A failed lookup leaves the client object as it was. *)
Lemma get_user_game_list_self (game_id : Z) (st : state) :
  self (snd (get_user_game_list game_id st)) = self st.
Proof.
  rewrite get_user_game_list_eq. cbv zeta.
  destruct (server _ _) as [r | m | m]; try reflexivity.
  destruct (negb (Response.code r =? 200)); try reflexivity.
  destruct (Response.data r) as [ | | | | | [ | x l'] | ]; reflexivity.
Qed.

(** C5: when the envelope of the role lookup carries a code other than 200,
    [get_user_game_list] raises the client error whose text is
    "API 请求失败: ", the envelope's message, " (code: ", the envelope's code
    in decimal and ")", and it returns no list. *)
Theorem get_user_game_list_rejects_code
        (game_id : Z) (st : state) (r : Response.t) :
  server (posted (io st)) (lookup_request (token (self st)) game_id)
  = Replied r ->
  Response.code r <> 200 ->
  get_user_game_list game_id st
  = (Raise (KurobbsClientException
              ("API 请求失败: " ++ Response.msg r ++ " (code: "
                                ++ str_int (Response.code r) ++ ")")),
     answered (lookup_request (token (self st)) game_id) (dump r) st)
  /\ (forall l st', get_user_game_list game_id st <> (Ok l, st')).
Proof.
  intros Hr Hc.
  assert (E : negb (Response.code r =? 200) = true).
  { apply negb_true_iff, Z.eqb_neq, Hc. }
  rewrite get_user_game_list_eq. cbv zeta. rewrite Hr, E.
  split; [reflexivity | discriminate].
Qed.

(** C6: when the envelope of the role lookup carries code 200 and its
    payload is not a non-empty list (absent, of another shape, or an empty
    list), [get_user_game_list] raises the client error
    "未找到游戏角色信息，请检查是否绑定角色"; a list it returns is never
    empty, and [checkin] never raises an index error. *)
Theorem no_role_found_never_index_error (st : state) :
  (forall game_id r,
      server (posted (io st)) (lookup_request (token (self st)) game_id)
      = Replied r ->
      Response.code r = 200 ->
      (forall l, Response.data r = PyList l -> l = []) ->
      get_user_game_list game_id st
      = (Raise (KurobbsClientException
                  "未找到游戏角色信息，请检查是否绑定角色"),
         answered (lookup_request (token (self st)) game_id) (dump r) st))
  /\ (forall game_id l st',
         get_user_game_list game_id st = (Ok l, st') -> l <> [])
  /\ (forall m st', checkin st <> (Raise (IndexError m), st')).
Proof.
  split; [ | split].
  - intros game_id r Hr Hc Hd.
    rewrite get_user_game_list_eq. cbv zeta. rewrite Hr, Hc. cbn.
    destruct (Response.data r) as [ | | | | | [ | x l] | ] eqn:E;
      try reflexivity.
    specialize (Hd _ eq_refl). discriminate.
  - intros game_id l st'. apply get_user_game_list_nonempty.
  - intros m st'. rewrite checkin_eq.
    destruct (get_user_game_list 3 st) as [[[ | x l] | e] st1] eqn:E.
    + apply get_user_game_list_nonempty in E. congruence.
    + unfold bind, lift.
      destruct (checkin_form x) as [d | e] eqn:F.
      * intros H. apply make_request_raise in H.
        destruct H as [m' [H | H]]; discriminate.
      * apply checkin_form_raise in F. destruct F as [m' ->]. congruence.
    + apply get_user_game_list_raise in E.
      destruct E as [m' [-> | [-> | ->]]]; cbn; discriminate.
Qed.

(** C2: when the role lookup inside [checkin] is answered by an envelope
    with a code other than 200, or with a payload that is not a non-empty
    list, [checkin] does not raise: it appends the lookup's client error to
    the error collection and returns the envelope with code -1, that
    error's text as message, and neither success flag nor payload. *)
Theorem checkin_absorbs_lookup_failure (st : state) (r : Response.t) :
  server (posted (io st)) (lookup_request (token (self st)) 3) = Replied r ->
  Response.code r <> 200
  \/ (forall l, Response.data r = PyList l -> l = []) ->
  let m := if negb (Response.code r =? 200) then api_failed r
           else no_role_found in
  let st1 := answered (lookup_request (token (self st)) 3) (dump r) st in
  get_user_game_list 3 st = (Raise (KurobbsClientException m), st1)
  /\ checkin st
     = (Ok (Response.mk (-1) m None PyNone),
        with_exception (KurobbsClientException m) st1).
Proof.
  intros Hr Hbad m st1.
  assert (L : get_user_game_list 3 st
              = (Raise (KurobbsClientException m), st1)).
  { rewrite get_user_game_list_eq. cbv zeta. rewrite Hr. subst m st1.
    destruct (negb (Response.code r =? 200)) eqn:E; [reflexivity | ].
    destruct Hbad as [Hc | Hd].
    - apply negb_false_iff, Z.eqb_eq in E. contradiction.
    - destruct (Response.data r) as [ | | | | | [ | x l] | ] eqn:F;
        try reflexivity.
      specialize (Hd _ eq_refl). discriminate. }
  split; [exact L | ].
  rewrite checkin_eq, L. reflexivity.
Qed.

(** ** The recording step and the run *)

Lemma dict_lookup_setitem {V : Type} (k : string) (v : V)
      (d : list (string * V)) :
  dict_lookup k (dict_setitem k v d) = Some v.
Proof.
  induction d as [ | [k' v'] d IH]; cbn.
  - rewrite String.eqb_refl. reflexivity.
  - destruct (String.eqb k' k) eqn:E; cbn; rewrite E; auto.
Qed.

Lemma process_sign_action_eq (name : string) (action : M Response.t)
      (ok_msg fail_msg : string) (st : state) :
  _process_sign_action name action ok_msg fail_msg st =
  match action st with
  | (Ok resp, st1) =>
      (Ok tt,
       if truthy_flag (Response.success resp)
       then with_result name ok_msg st1
       else with_exception (KurobbsClientException fail_msg) st1)
  | (Raise e, st1) => (Raise e, st1)
  end.
Proof.
  unfold KurobbsClient._process_sign_action, bind.
  destruct (action st) as [[resp | e] st1]; try reflexivity.
  destruct (truthy_flag (Response.success resp)); reflexivity.
Qed.

Lemma truthy_str_bang (s : string) : truthy_str (s ++ "!") = true.
Proof. destruct s; reflexivity. Qed.

Lemma log_eq (st : state) :
  _log st =
  (if truthy_list (exceptions (self st))
   then Raise (KurobbsClientException
                 (join ", " (map str_exn (exceptions (self st)))))
   else Ok tt,
   mkState (self st) (emit INFO (msg (self st)) (io st))).
Proof.
  unfold KurobbsClient._log, bind, get_self.
  unfold KurobbsClient.msg at 1. rewrite truthy_str_bang.
  unfold logger. cbn [self].
  destruct (truthy_list (exceptions (self st))); reflexivity.
Qed.

Lemma start_eq (st : state) :
  start st =
  match _process_sign_action "checkin" checkin checkin_ok checkin_failed st
  with
  | (Ok _, s1) =>
      match _process_sign_action "sign_in" sign_in sign_in_ok sign_in_failed
                                 s1
      with
      | (Ok _, s2) => _log s2
      | (Raise e, s2) => (Raise e, s2)
      end
  | (Raise e, s1) => (Raise e, s1)
  end.
Proof. reflexivity. Qed.

Lemma posted_answered (rq : request) (line : string) (st : state) :
  posted (io (answered rq line st)) = (posted (io st) ++ [rq])%list.
Proof.
  unfold answered. cbn [io].
  destruct (emit_frame DEBUG line (after_post rq (io st))) as [-> _].
  reflexivity.
Qed.

Lemma make_request_posted (u : string) (d : list (string * pyval))
      (st : state) :
  posted (io (snd (make_request u d st)))
  = (posted (io st) ++ [mkRequest u (headers_of (token (self st))) d])%list.
Proof.
  rewrite make_request_eq. cbv zeta.
  destruct (server _ _); cbn [snd]; try reflexivity.
  apply posted_answered.
Qed.

Lemma get_user_game_list_posted (game_id : Z) (st : state) :
  posted (io (snd (get_user_game_list game_id st)))
  = (posted (io st) ++ [lookup_request (token (self st)) game_id])%list.
Proof.
  rewrite get_user_game_list_eq. cbv zeta.
  destruct (server _ _) as [r | m | m]; try reflexivity.
  destruct (negb (Response.code r =? 200)); cbn [snd];
    try apply posted_answered.
  destruct (Response.data r) as [ | | | | | [ | x l'] | ]; cbn [snd];
    apply posted_answered.
Qed.

Lemma checkin_token (st : state) :
  token (self (snd (checkin st))) = token (self st).
Proof.
  rewrite checkin_eq.
  pose proof (get_user_game_list_self 3 st) as S.
  destruct (get_user_game_list 3 st) as [[[ | x l] | e] st1]; cbn [snd] in *.
  - congruence.
  - unfold bind, lift. destruct (checkin_form x) as [d | e]; cbn [snd].
    + rewrite make_request_self. congruence.
    + congruence.
  - destruct (is_client_error e); cbn; congruence.
Qed.

(** C7: for any action name, action and pair of messages, when the action
    returns an envelope the recording step itself returns normally and does
    exactly one of two things: if the envelope's success flag is truthy it
    stores the success message under the action's name and leaves the error
    collection alone; otherwise it appends the client error carrying the
    failure message and leaves the results alone. *)
Theorem process_sign_action_records_one
        (name : string) (action : M Response.t) (ok_msg fail_msg : string)
        (st st1 : state) (resp : Response.t) :
  action st = (Ok resp, st1) ->
  exists st2,
    _process_sign_action name action ok_msg fail_msg st = (Ok tt, st2)
    /\ io st2 = io st1
    /\ token (self st2) = token (self st1)
    /\ ((truthy_flag (Response.success resp) = true
         /\ result (self st2) = dict_setitem name ok_msg (result (self st1))
         /\ dict_lookup name (result (self st2)) = Some ok_msg
         /\ exceptions (self st2) = exceptions (self st1))
        \/ (truthy_flag (Response.success resp) = false
            /\ result (self st2) = result (self st1)
            /\ exceptions (self st2)
               = (exceptions (self st1)
                    ++ [KurobbsClientException fail_msg])%list)).
Proof.
  intros Ha. rewrite process_sign_action_eq, Ha.
  destruct (truthy_flag (Response.success resp)) eqn:T;
    eexists; (split; [reflexivity | ]); cbn; repeat split.
  - left. repeat split. apply dict_lookup_setitem.
  - right. repeat split.
Qed.

(** C4: when the role lookup inside [checkin] is answered with code 200 and
    a list with first element [x], what [checkin] does next is determined by
    [x] alone: it builds the form from [x] and posts it to the reward
    endpoint; when [x] is a dict the posted form holds [x]'s gameId (2 if
    absent), serverId, roleId and userId and the two-digit month, whatever
    the rest of the list is. *)
Theorem checkin_uses_first_role
        (st : state) (r : Response.t) (x : pyval) (rest : list pyval) :
  server (posted (io st)) (lookup_request (token (self st)) 3) = Replied r ->
  Response.code r = 200 ->
  Response.data r = PyList (x :: rest) ->
  let tok := token (self st) in
  let st1 := answered (lookup_request tok 3) (dump r) st in
  checkin st
  = (d <- lift (checkin_form x) ;; make_request KurobbsClient.SIGN_URL d) st1
  /\ forall items,
      x = PyDict items ->
      posted (io (snd (checkin st)))
      = (posted (io st)
           ++ [ lookup_request tok 3;
                reward_request tok
                  [ ("gameId", dict_get "gameId" (PyInt 2) items);
                    ("serverId", dict_get "serverId" PyNone items);
                    ("roleId", dict_get "roleId" PyNone items);
                    ("userId", dict_get "userId" PyNone items);
                    ("reqMonth", PyStr (fmt_02d beijing_month)) ] ])%list.
Proof.
  intros Hr Hc Hd tok st1. subst tok.
  assert (L : get_user_game_list 3 st = (Ok (x :: rest), st1)).
  { rewrite get_user_game_list_eq. cbv zeta. rewrite Hr, Hc, Hd.
    reflexivity. }
  assert (C : checkin st
              = (d <- lift (checkin_form x) ;;
                 make_request KurobbsClient.SIGN_URL d) st1).
  { rewrite checkin_eq, L. reflexivity. }
  split; [exact C | ].
  intros items ->. rewrite C. unfold bind, lift. cbn [KurobbsClient.checkin_form py_get].
  rewrite make_request_posted. unfold st1 at 1. rewrite posted_answered.
  rewrite <- app_assoc. reflexivity.
Qed.

(** ** What a run leaves alone *)

Lemma keeps_bind {A B X : Type} (f : state -> X) (m : M A) (k : A -> M B) :
  keeps f m -> (forall a, keeps f (k a)) -> keeps f (bind m k).
Proof.
  intros Hm Hk st. unfold bind. specialize (Hm st).
  destruct (m st) as [[a | e] s1]; cbn [snd] in *.
  - rewrite Hk. exact Hm.
  - exact Hm.
Qed.

Lemma keeps_try {A B X : Type} (f : state -> X)
      (body : M A) (handler : exn -> M B) (rest : A -> M B) :
  keeps f body -> (forall e, keeps f (handler e)) ->
  (forall a, keeps f (rest a)) ->
  keeps f (try_except_client body handler rest).
Proof.
  intros Hb Hh Hr st. unfold try_except_client. specialize (Hb st).
  destruct (body st) as [[a | e] s1]; cbn [snd] in *.
  - rewrite Hr. exact Hb.
  - destruct (is_client_error e); [rewrite Hh | ]; exact Hb.
Qed.

Lemma keeps_pure {A X : Type} (f : state -> X) (r : res A) :
  keeps f (lift r).
Proof. intros st. reflexivity. Qed.

Lemma frame_logger (l : level) (s : string) : keeps frame (logger l s).
Proof.
  intros st. unfold frame, logger. cbn.
  destruct (emit_frame l s (io st)) as (_ & -> & ->). reflexivity.
Qed.

Lemma frame_make_request (u : string) (d : list (string * pyval)) :
  keeps frame (make_request u d).
Proof.
  intros st. rewrite make_request_eq. cbv zeta.
  destruct (server _ _); try reflexivity.
  unfold frame, answered. cbn.
  destruct (emit_frame DEBUG (dump r) (after_post
             (mkRequest u (headers_of (token (self st))) d) (io st)))
    as (_ & -> & ->).
  reflexivity.
Qed.

Lemma frame_get_user_game_list (game_id : Z) :
  keeps frame (get_user_game_list game_id).
Proof.
  unfold KurobbsClient.get_user_game_list.
  apply keeps_bind; [apply frame_make_request | ].
  intros r st. destruct (negb (Response.code r =? 200)); try reflexivity.
  destruct (Response.data r) as [ | | | | | l | ]; try reflexivity.
  destruct (length l =? 0)%nat; reflexivity.
Qed.

Lemma frame_checkin : keeps frame checkin.
Proof.
  unfold KurobbsClient.checkin. apply keeps_try.
  - apply keeps_bind; [apply frame_get_user_game_list | ].
    intros l. apply keeps_pure.
  - intros e st. reflexivity.
  - intros x. apply keeps_bind; [apply keeps_pure | ].
    intros d. apply frame_make_request.
Qed.

Lemma frame_process (name : string) (action : M Response.t)
      (ok_msg fail_msg : string) :
  keeps frame action ->
  keeps frame (_process_sign_action name action ok_msg fail_msg).
Proof.
  intros Ha. unfold KurobbsClient._process_sign_action.
  apply keeps_bind; [exact Ha | ].
  intros resp st. destruct (truthy_flag (Response.success resp)); reflexivity.
Qed.

Lemma frame_log : keeps frame _log.
Proof.
  intros st. rewrite log_eq. cbn [snd].
  change (mkState (self st) (emit INFO (msg (self st)) (io st)))
    with (snd (logger INFO (msg (self st)) st)).
  apply frame_logger.
Qed.

Lemma frame_start : keeps frame start.
Proof.
  unfold KurobbsClient.start.
  apply keeps_bind; [apply frame_process, frame_checkin | ].
  intros _. apply keeps_bind; [ | intros _; apply frame_log].
  apply frame_process. intros st. apply frame_make_request.
Qed.

(** ** What a run raises *)

Lemma checkin_raise (st st' : state) (e : exn) :
  checkin st = (Raise e, st') -> is_client_error e = false.
Proof.
  rewrite checkin_eq.
  destruct (get_user_game_list 3 st) as [[[ | x l] | e1] st1] eqn:E.
  - intros H. inversion H. reflexivity.
  - unfold bind, lift. destruct (checkin_form x) as [d | e2] eqn:F.
    + intros H. apply make_request_raise in H.
      destruct H as [m [-> | ->]]; reflexivity.
    + apply checkin_form_raise in F. destruct F as [m ->].
      intros H. inversion H. reflexivity.
  - destruct (is_client_error e1) eqn:K; intros H; inversion H.
    subst. exact K.
Qed.

Lemma sign_in_raise (st st' : state) (e : exn) :
  sign_in st = (Raise e, st') -> is_client_error e = false.
Proof.
  intros H. apply make_request_raise in H.
  destruct H as [m [-> | ->]]; reflexivity.
Qed.

Lemma process_raise (name : string) (action : M Response.t)
      (ok_msg fail_msg : string) (st st' : state) (e : exn) :
  _process_sign_action name action ok_msg fail_msg st = (Raise e, st') ->
  action st = (Raise e, st').
Proof.
  rewrite process_sign_action_eq.
  destruct (action st) as [[resp | e1] st1]; intros H; inversion H.
  reflexivity.
Qed.

(** A run that is not cut short inside an action: both actions returned an
    envelope, and the run ends in the reporting step. *)
Lemma start_reaches_log (st st' : state) (out : res unit) :
  start st = (out, st') ->
  (forall e, out = Raise e -> is_client_error e = true) ->
  exists r1 st1 r2 st2,
    checkin st = (Ok r1, st1)
    /\ let s1 := if truthy_flag (Response.success r1)
                 then with_result "checkin" checkin_ok st1
                 else with_exception (KurobbsClientException checkin_failed)
                                     st1 in
       sign_in s1 = (Ok r2, st2)
       /\ let s2 := if truthy_flag (Response.success r2)
                    then with_result "sign_in" sign_in_ok st2
                    else with_exception
                           (KurobbsClientException sign_in_failed) st2 in
          _log s2 = (out, st').
Proof.
  intros Hs Hout. rewrite start_eq in Hs.
  rewrite process_sign_action_eq in Hs.
  destruct (checkin st) as [[r1 | e1] st1] eqn:C.
  - rewrite process_sign_action_eq in Hs.
    match type of Hs with
    | context [sign_in ?s] => destruct (sign_in s) as [[r2 | e2] st2] eqn:S
    end.
    + exists r1, st1, r2, st2. split; [reflexivity | ].
      cbv zeta. split; [exact S | exact Hs].
    + inversion Hs. subst. apply sign_in_raise in S.
      specialize (Hout _ eq_refl). congruence.
  - inversion Hs. subst. apply checkin_raise in C.
    specialize (Hout _ eq_refl). congruence.
Qed.

Lemma log_posted (st : state) :
  posted (io (snd (_log st))) = posted (io st).
Proof.
  rewrite log_eq. cbn [snd io].
  destruct (emit_frame INFO (msg (self st)) (io st)) as [-> _]. reflexivity.
Qed.

(** Once [checkin] has returned, the sign-in request is the next and last
    one of the run. *)
Lemma start_posted (st st1 : state) (resp : Response.t) :
  checkin st = (Ok resp, st1) ->
  posted (io (snd (start st)))
  = (posted (io st1) ++ [sign_in_request (token (self st))])%list.
Proof.
  intros C. pose proof (checkin_token st) as T. rewrite C in T. cbn in T.
  rewrite start_eq, process_sign_action_eq, C.
  set (s1 := if truthy_flag (Response.success resp)
             then with_result "checkin" checkin_ok st1
             else with_exception (KurobbsClientException checkin_failed) st1).
  assert (P1 : posted (io s1) = posted (io st1)
               /\ token (self s1) = token (self st)).
  { subst s1. destruct (truthy_flag _); cbn; auto. }
  destruct P1 as [P1 T1].
  pose proof (make_request_posted KurobbsClient.USER_SIGN_URL
                                  [("gameId", PyInt 2)] s1) as P2.
  rewrite P1, T1 in P2.
  rewrite process_sign_action_eq.
  change (sign_in s1)
    with (make_request KurobbsClient.USER_SIGN_URL [("gameId", PyInt 2)] s1).
  destruct (make_request _ _ s1) as [[r2 | e2] st2]; cbn [snd] in *.
  - rewrite log_posted.
    destruct (truthy_flag (Response.success r2)); exact P2.
  - exact P2.
Qed.

(** C1: for a run of [start] that is not cut short inside an action (its
    outcome is not an exception other than a client error, so both actions
    returned), the run raises the aggregate client error exactly when the
    error collection it ends with is not empty, and the text of that error
    is the texts of the collected errors, in order, joined by ", "; with an
    empty collection it returns normally.  A success message recorded next
    to an error does not change that. *)
Theorem start_raises_iff_errors (st st' : state) (out : res unit) :
  start st = (out, st') ->
  (forall e, out = Raise e -> is_client_error e = true) ->
  out = (if truthy_list (exceptions (self st'))
         then Raise (KurobbsClientException
                       (join ", " (map str_exn (exceptions (self st')))))
         else Ok tt)
  /\ ((exists e, out = Raise e) <-> exceptions (self st') <> [])
  /\ (result (self st') <> [] -> exceptions (self st') <> [] ->
      out = Raise (KurobbsClientException
                     (join ", " (map str_exn (exceptions (self st')))))).
Proof.
  intros Hs Hout.
  destruct (start_reaches_log st st' out Hs Hout)
    as (r1 & st1 & r2 & st2 & _ & _ & L).
  cbv zeta in L. rewrite log_eq in L. inversion L as [[Ho Hst]].
  cbn [self exceptions].
  match goal with
  | |- context [exceptions (self ?s)] => set (errs := exceptions (self s))
  end.
  destruct errs as [ | e0 errs']; cbn [truthy_list].
  - repeat split.
    + intros [e He]. discriminate.
    + intros H. contradiction.
    + intros _ H. contradiction.
  - repeat split.
    + intros _. discriminate.
    + intros _. eauto.
Qed.

(** C3: whenever [checkin] returns an envelope, whatever its success flag,
    the recording step for it returns normally and the run goes on to post
    the sign-in request, the last request of the run; this is so in
    particular whenever the role lookup raises a client error, after which
    the run posts exactly the lookup and the sign-in. *)
Theorem sign_in_runs_after_checkin (st : state) :
  (forall resp st1,
      checkin st = (Ok resp, st1) ->
      fst (_process_sign_action "checkin" checkin
                                "签到奖励签到成功" "签到奖励签到失败" st)
      = Ok tt
      /\ posted (io (snd (start st)))
         = (posted (io st1) ++ [sign_in_request (token (self st))])%list)
  /\ (forall m st1,
         get_user_game_list 3 st = (Raise (KurobbsClientException m), st1) ->
         posted (io (snd (start st)))
         = (posted (io st)
              ++ [ lookup_request (token (self st)) 3;
                   sign_in_request (token (self st)) ])%list).
Proof.
  split.
  - intros resp st1 C. split.
    + rewrite process_sign_action_eq, C. reflexivity.
    + eapply start_posted, C.
  - intros m st1 L.
    pose proof (get_user_game_list_posted 3 st) as P. rewrite L in P.
    cbn [snd] in P.
    assert (C : checkin st
                = (Ok (Response.mk (-1) m None PyNone),
                   with_exception (KurobbsClientException m) st1)).
    { rewrite checkin_eq, L. reflexivity. }
    rewrite (start_posted _ _ _ C). cbn [with_exception io].
    rewrite P, <- app_assoc. reflexivity.
Qed.

Lemma make_request_ok (u : string) (d : list (string * pyval))
      (st st' : state) (r : Response.t) :
  make_request u d st = (Ok r, st') ->
  let rq := mkRequest u (headers_of (token (self st))) d in
  server (posted (io st)) rq = Replied r /\ st' = answered rq (dump r) st.
Proof.
  rewrite make_request_eq. cbv zeta.
  destruct (server _ _); intros H; inversion H. auto.
Qed.

Lemma checkin_result (st : state) :
  result (self (snd (checkin st))) = result (self st).
Proof.
  revert st. change (keeps (fun s => result (self s)) checkin).
  unfold KurobbsClient.checkin. apply keeps_try.
  - apply keeps_bind; [ | intros l; apply keeps_pure].
    intros st. cbn beta. rewrite get_user_game_list_self. reflexivity.
  - intros e st. reflexivity.
  - intros x. apply keeps_bind; [apply keeps_pure | ].
    intros d st. cbn beta. rewrite make_request_self. reflexivity.
Qed.

(** C8: for a run of [start] on a new client that is not cut short inside
    an action, with [r1] the envelope [checkin] returned and [r2] the
    envelope the sign-in request was answered with, the summary is the
    success messages recorded for them, checkin's before sign-in's, joined
    by ", " and followed by "!": "签到奖励签到成功, 社区签到成功!" when both
    flags are truthy and "!" when neither is.  The last record of the log
    is the summary at INFO, also when the run raises. *)
Theorem summary_of_run
        (tok : option string) (p : proc) (out : res unit) (st' : state) :
  start (mkState (KurobbsClient.init tok) p) = (out, st') ->
  (forall e, out = Raise e -> is_client_error e = true) ->
  exists r1 st1 r2,
    checkin (mkState (KurobbsClient.init tok) p) = (Ok r1, st1)
    /\ server (posted (io st1)) (sign_in_request tok) = Replied r2
    /\ dict_values (result (self st')) = recorded r1 r2
    /\ msg (self st') = join ", " (recorded r1 r2) ++ "!"
    /\ (truthy_flag (Response.success r1) = true ->
        truthy_flag (Response.success r2) = true ->
        msg (self st') = "签到奖励签到成功, 社区签到成功!")
    /\ (truthy_flag (Response.success r1) = false ->
        truthy_flag (Response.success r2) = false ->
        msg (self st') = "!")
    /\ exists before,
        logged (io st') = (before ++ [mkLog INFO (msg (self st'))])%list.
Proof.
  intros Hs Hout.
  destruct (start_reaches_log _ _ _ Hs Hout)
    as (r1 & st1 & r2 & st2 & C & S & L).
  cbv zeta in S, L. exists r1, st1, r2.
  pose proof (checkin_token (mkState (KurobbsClient.init tok) p)) as T.
  pose proof (checkin_result (mkState (KurobbsClient.init tok) p)) as R.
  rewrite C in T, R. cbn in T, R.
  apply make_request_ok in S. cbv zeta in S. destruct S as [S1 S2].
  rewrite log_eq in L. inversion L as [[Ho Hst]]. clear L Ho Hst.
  assert (V : dict_values
                (result (self
                   (if truthy_flag (Response.success r2)
                    then with_result "sign_in" sign_in_ok st2
                    else with_exception
                           (KurobbsClientException sign_in_failed) st2)))
              = recorded r1 r2).
  { rewrite S2. unfold recorded.
    destruct (truthy_flag (Response.success r1)),
             (truthy_flag (Response.success r2));
      cbn; rewrite R; reflexivity. }
  split; [exact C | ].
  split.
  { destruct (truthy_flag (Response.success r1)); cbn in S1;
      rewrite T in S1; exact S1. }
  cbn [self io].
  split; [exact V | ].
  split; [unfold KurobbsClient.msg; rewrite V; reflexivity | ].
  split.
  { intros T1 T2. unfold KurobbsClient.msg. rewrite V. unfold recorded.
    rewrite T1, T2. reflexivity. }
  split.
  { intros T1 T2. unfold KurobbsClient.msg. rewrite V. unfold recorded.
    rewrite T1, T2. reflexivity. }
  eexists. apply emit_visible. discriminate.
Qed.

(** C9: when the role lookup inside [checkin] raises a client error with
    text [m], recording the checkin action leaves two new entries in the
    error collection, first that error, then the client error
    "签到奖励签到失败"; when the sign-in request is then answered by an
    envelope, the run raises the aggregate error over the whole collection,
    whose text on a new client starts with [m], then ", ", then
    "签到奖励签到失败". *)
Theorem lookup_failure_counts_twice (st st1 : state) (m : string) :
  get_user_game_list 3 st = (Raise (KurobbsClientException m), st1) ->
  exceptions
    (self (snd (_process_sign_action "checkin" checkin "签到奖励签到成功"
                                     "签到奖励签到失败" st)))
  = (exceptions (self st)
       ++ [ KurobbsClientException m;
            KurobbsClientException "签到奖励签到失败" ])%list
  /\ forall r2,
      server (posted (io st1)) (sign_in_request (token (self st)))
      = Replied r2 ->
      let late := if truthy_flag (Response.success r2) then []
                  else [KurobbsClientException "社区签到失败"] in
      let errs := (exceptions (self st)
                     ++ [ KurobbsClientException m;
                          KurobbsClientException "签到奖励签到失败" ]
                     ++ late)%list in
      exceptions (self (snd (start st))) = errs
      /\ fst (start st)
         = Raise (KurobbsClientException (join ", " (map str_exn errs)))
      /\ (exceptions (self st) = [] ->
          fst (start st)
          = Raise (KurobbsClientException
                     (m ++ ", " ++ "签到奖励签到失败"
                        ++ (if truthy_flag (Response.success r2) then ""
                            else ", 社区签到失败")))).
Proof.
  intros L.
  pose proof (get_user_game_list_self 3 st) as Sf. rewrite L in Sf.
  cbn [snd] in Sf.
  assert (C : checkin st
              = (Ok (Response.mk (-1) m None PyNone),
                 with_exception (KurobbsClientException m) st1)).
  { rewrite checkin_eq, L. reflexivity. }
  assert (P : _process_sign_action "checkin" checkin checkin_ok
                                   checkin_failed st
              = (Ok tt,
                 with_exception
                   (KurobbsClientException checkin_failed)
                   (with_exception (KurobbsClientException m) st1))).
  { rewrite process_sign_action_eq, C. reflexivity. }
  split.
  { change "签到奖励签到成功" with checkin_ok.
    change "签到奖励签到失败" with checkin_failed.
    rewrite P. cbn. rewrite Sf, <- app_assoc. reflexivity. }
  intros r2 Hr late errs.
  assert (S : start st
              = (Raise (KurobbsClientException
                          (join ", " (map str_exn errs))),
                 snd (start st))
              /\ exceptions (self (snd (start st))) = errs).
  { rewrite start_eq, P, process_sign_action_eq.
    unfold KurobbsClient.sign_in. rewrite make_request_eq. cbv zeta.
    cbn [with_exception self io token]. unfold sign_in_request in Hr.
    rewrite Sf, Hr.
    rewrite log_eq. subst errs late.
    destruct (truthy_flag (Response.success r2)); cbn [self exceptions
      with_exception with_result answered snd fst];
      rewrite Sf, <- !app_assoc; cbn [app];
      destruct (exceptions (self st)); cbn [app truthy_list]; auto. }
  destruct S as [S1 S2]. split; [exact S2 | ]. split.
  { rewrite S1. reflexivity. }
  intros E. rewrite S1. cbn [fst]. subst errs late. rewrite E.
  destruct (truthy_flag (Response.success r2)); cbn; reflexivity.
Qed.

(** C10: the summary of any client is a non-empty string ending in "!",
    so it is truthy; the reporting step therefore writes it to the log at
    INFO on every run, and when [start] returns normally [main] hands it to
    the notifier and ends with status 0. *)
Theorem summary_never_empty :
  (forall c, msg c <> "" /\ ends_with_bang (msg c)
             /\ truthy_str (msg c) = true)
  /\ (forall st,
         logged (io (snd (_log st)))
         = (logged (io st) ++ [mkLog INFO (msg (self st))])%list)
  /\ (forall tok dbg p st1,
         start (mkState (KurobbsClient.init tok)
                        (configure_logger (truthy_env dbg) p))
         = (Ok tt, st1) ->
         main server beijing_month dump_json tok dbg p
         = (0,
            mkState (self st1)
                    (mkProc (posted (io st1)) (logged (io st1))
                            (sink_debug (io st1))
                            (barks p ++ [msg (self st1)])))).
Proof.
  split; [ | split].
  - intros c. unfold KurobbsClient.msg. repeat split.
    + destruct (join ", " (dict_values (result c))); discriminate.
    + eexists. reflexivity.
    + apply truthy_str_bang.
  - intros st. rewrite log_eq. apply emit_visible. discriminate.
  - intros tok dbg p st1 Hs.
    pose proof (frame_start (mkState (KurobbsClient.init tok)
                               (configure_logger (truthy_env dbg) p))) as F.
    rewrite Hs in F. unfold frame in F. cbn in F.
    assert (B : barks (io st1) = barks p) by congruence.
    unfold main, main_try. unfold bind at 1. rewrite Hs.
    unfold bind, get_self. unfold KurobbsClient.msg at 1.
    rewrite truthy_str_bang. unfold send_bark_notification.
    rewrite B. reflexivity.
Qed.

End Run.

(** * The statements at scripted runs *)

(** Partial success: the reward is granted, the sign-in is refused, and the
    run raises. *)
Lemma start_raises_iff_errors_witness :
  let run := KurobbsClient.start sign_in_refused 7 plain_dump demo_state in
  result (self (snd run)) = [("checkin", "签到奖励签到成功")]
  /\ fst run = Raise (KurobbsClientException "社区签到失败").
Proof.
  cbv zeta. split; [reflexivity | ].
  destruct (start_raises_iff_errors
              sign_in_refused 7 plain_dump demo_state
              (snd (KurobbsClient.start sign_in_refused 7 plain_dump
                                        demo_state))
              (fst (KurobbsClient.start sign_in_refused 7 plain_dump
                                        demo_state)))
    as [W _].
  - reflexivity.
  - intros e H. vm_compute in H. inversion H. reflexivity.
  - rewrite W. reflexivity.
Defined.

Lemma checkin_absorbs_lookup_failure_witness :
  fst (KurobbsClient.checkin lookup_refused 7 plain_dump demo_state)
  = Ok (Response.mk (-1) "API 请求失败: ok (code: 500)" None PyNone).
Proof.
  destruct (checkin_absorbs_lookup_failure
              lookup_refused 7 plain_dump demo_state
              (Response.mk 500 "ok" None PyNone))
    as [_ W].
  - reflexivity.
  - left. cbn. lia.
  - rewrite W. reflexivity.
Defined.

Lemma sign_in_runs_after_checkin_witness :
  map url (posted (io (snd (KurobbsClient.start no_roles 7 plain_dump
                                                demo_state))))
  = [ KurobbsClient.FIND_ROLE_LIST_API_URL; KurobbsClient.USER_SIGN_URL ].
Proof.
  destruct (sign_in_runs_after_checkin no_roles 7 plain_dump demo_state)
    as [_ W].
  rewrite (W no_role_found
             (snd (KurobbsClient.get_user_game_list no_roles plain_dump 3
                                                    demo_state))).
  - reflexivity.
  - reflexivity.
Defined.

(** The second role carries the game id of the lookup; the first one is
    used all the same. *)
Lemma checkin_uses_first_role_witness :
  map form (posted (io (snd (KurobbsClient.checkin all_good 7 plain_dump
                                                   demo_state))))
  = [ [("gameId", PyInt 3)];
      [ ("gameId", PyInt 2); ("serverId", PyInt 11); ("roleId", PyInt 12);
        ("userId", PyInt 13); ("reqMonth", PyStr "07") ] ].
Proof.
  destruct (checkin_uses_first_role
              all_good 7 plain_dump demo_state
              (Response.mk 200 "ok" None two_roles)
              (role 2 11 12 13) [role 3 21 22 23])
    as [_ W].
  - reflexivity.
  - reflexivity.
  - reflexivity.
  - rewrite (W _ eq_refl). reflexivity.
Defined.

Lemma get_user_game_list_rejects_code_witness :
  fst (KurobbsClient.get_user_game_list lookup_refused plain_dump 3
                                        demo_state)
  = Raise (KurobbsClientException "API 请求失败: ok (code: 500)").
Proof.
  destruct (get_user_game_list_rejects_code
              lookup_refused plain_dump 3 demo_state
              (Response.mk 500 "ok" None PyNone))
    as [W _].
  - reflexivity.
  - cbn. lia.
  - rewrite W. reflexivity.
Defined.

Lemma no_role_found_never_index_error_witness :
  fst (KurobbsClient.get_user_game_list no_roles plain_dump 3 demo_state)
  = Raise (KurobbsClientException
             "未找到游戏角色信息，请检查是否绑定角色").
Proof.
  destruct (no_role_found_never_index_error no_roles 7 plain_dump demo_state)
    as [W _].
  rewrite (W 3 (Response.mk 200 "ok" None (PyList []))).
  - reflexivity.
  - reflexivity.
  - reflexivity.
  - intros l H. inversion H. reflexivity.
Defined.

Lemma process_sign_action_records_one_witness :
  exists st2,
    KurobbsClient._process_sign_action
      "sign_in" (KurobbsClient.sign_in sign_in_refused plain_dump)
      "社区签到成功" "社区签到失败" demo_state
    = (Ok tt, st2)
    /\ result (self st2) = []
    /\ exceptions (self st2) = [KurobbsClientException "社区签到失败"].
Proof.
  destruct (process_sign_action_records_one
              "sign_in" (KurobbsClient.sign_in sign_in_refused plain_dump)
              "社区签到成功" "社区签到失败" demo_state
              (snd (KurobbsClient.sign_in sign_in_refused plain_dump
                                          demo_state))
              (Response.mk 200 "ok" (Some false) PyNone))
    as (st2 & W & _ & _ & [(T & _) | (_ & R & E)]).
  - reflexivity.
  - discriminate T.
  - exists st2. split; [exact W | ]. split; [exact R | exact E].
Defined.

Lemma summary_of_run_witness :
  KurobbsClient.msg
    (self (snd (KurobbsClient.start all_good 7 plain_dump demo_state)))
  = "签到奖励签到成功, 社区签到成功!".
Proof.
  destruct (summary_of_run
              all_good 7 plain_dump (Some "token") fresh_proc
              (fst (KurobbsClient.start all_good 7 plain_dump demo_state))
              (snd (KurobbsClient.start all_good 7 plain_dump demo_state)))
    as (r1 & st1 & r2 & C & S & _ & _ & W & _).
  - reflexivity.
  - intros e H. vm_compute in H. discriminate H.
  - apply W.
    + inversion C. reflexivity.
    + inversion C. subst. inversion S. reflexivity.
Defined.

Lemma lookup_failure_counts_twice_witness :
  fst (KurobbsClient.start no_roles 7 plain_dump demo_state)
  = Raise (KurobbsClientException
             "未找到游戏角色信息，请检查是否绑定角色, 签到奖励签到失败").
Proof.
  destruct (lookup_failure_counts_twice
              no_roles 7 plain_dump demo_state
              (snd (KurobbsClient.get_user_game_list no_roles plain_dump 3
                                                     demo_state))
              no_role_found)
    as [_ W].
  - reflexivity.
  - destruct (W (Response.mk 200 "ok" (Some true) PyNone)) as (_ & _ & W').
    + reflexivity.
    + rewrite W'; reflexivity.
Defined.

Lemma summary_never_empty_witness :
  barks (io (snd (main all_good 7 plain_dump (Some "token") None
                       fresh_proc)))
  = ["签到奖励签到成功, 社区签到成功!"].
Proof.
  destruct (summary_never_empty all_good 7 plain_dump) as (_ & _ & W).
  rewrite (W (Some "token") None fresh_proc
             (snd (KurobbsClient.start
                     all_good 7 plain_dump
                     (mkState (KurobbsClient.init (Some "token"))
                              (configure_logger (truthy_env None)
                                                fresh_proc))))).
  - reflexivity.
  - reflexivity.
Defined.

(** * Beyond the claims *)

Section Beyond.

Variable server : list request -> request -> reply.
Variable beijing_month : Z.
Variable dump_json : Z -> string -> option bool -> string.

Local Abbreviation make_request :=
  (KurobbsClient.make_request server dump_json).
Local Abbreviation get_user_game_list :=
  (KurobbsClient.get_user_game_list server dump_json).
Local Abbreviation checkin_form := (KurobbsClient.checkin_form beijing_month).
Local Abbreviation checkin :=
  (KurobbsClient.checkin server beijing_month dump_json).
Local Abbreviation sign_in := (KurobbsClient.sign_in server dump_json).
Local Abbreviation start :=
  (KurobbsClient.start server beijing_month dump_json).
Local Abbreviation _process_sign_action := KurobbsClient._process_sign_action.
Local Abbreviation _log := KurobbsClient._log.
Local Abbreviation msg := KurobbsClient.msg.
Local Abbreviation dump := (dump_of dump_json).

(** ** Relations every step of a run respects *)

Section Follows.

Variable R : state -> state -> Prop.
Hypothesis R_refl : forall st, R st st.
Hypothesis R_trans : forall a b c, R a b -> R b c -> R a c.

Lemma follows_bind {A B : Type} (m : M A) (k : A -> M B) :
  follows R m -> (forall a, follows R (k a)) -> follows R (bind m k).
Proof.
  intros Hm Hk st. unfold bind. specialize (Hm st).
  destruct (m st) as [[a | e] s1]; cbn [snd] in *.
  - eapply R_trans; [exact Hm | apply Hk].
  - exact Hm.
Qed.

Lemma follows_try {A B : Type}
      (body : M A) (handler : exn -> M B) (rest : A -> M B) :
  follows R body -> (forall e, follows R (handler e)) ->
  (forall a, follows R (rest a)) ->
  follows R (try_except_client body handler rest).
Proof.
  intros Hb Hh Hr st. unfold try_except_client. specialize (Hb st).
  destruct (body st) as [[a | e] s1]; cbn [snd] in *.
  - eapply R_trans; [exact Hb | apply Hr].
  - destruct (is_client_error e); [ | exact Hb].
    eapply R_trans; [exact Hb | apply Hh].
Qed.

Lemma follows_pure {A : Type} (r : res A) : follows R (lift r).
Proof. intros st. apply R_refl. Qed.

Hypothesis R_request : forall u d, follows R (make_request u d).
Hypothesis R_logger : forall l s, follows R (logger l s).
Hypothesis R_append : forall e, follows R (append_exception e).
Hypothesis R_set : forall k v, follows R (set_result k v).

Lemma follows_get_user_game_list (game_id : Z) :
  follows R (get_user_game_list game_id).
Proof.
  unfold KurobbsClient.get_user_game_list.
  apply follows_bind; [apply R_request | ].
  intros r st. destruct (negb (Response.code r =? 200)); [apply R_refl | ].
  destruct (Response.data r) as [ | | | | | l | ]; try apply R_refl.
  destruct (length l =? 0)%nat; apply R_refl.
Qed.

Lemma follows_checkin : follows R checkin.
Proof.
  unfold KurobbsClient.checkin. apply follows_try.
  - apply follows_bind; [apply follows_get_user_game_list | ].
    intros l. apply follows_pure.
  - intros e. apply follows_bind; [apply R_append | ].
    intros _ st. apply R_refl.
  - intros x. apply follows_bind; [apply follows_pure | ].
    intros d. apply R_request.
Qed.

Lemma follows_process (name : string) (action : M Response.t)
      (ok_msg fail_msg : string) :
  follows R action ->
  follows R (_process_sign_action name action ok_msg fail_msg).
Proof.
  intros Ha. unfold KurobbsClient._process_sign_action.
  apply follows_bind; [exact Ha | ].
  intros resp. destruct (truthy_flag (Response.success resp));
    [apply R_set | apply R_append].
Qed.

Lemma follows_log : follows R _log.
Proof.
  intros st. rewrite log_eq. cbn [snd].
  change (mkState (self st) (emit INFO (msg (self st)) (io st)))
    with (snd (logger INFO (msg (self st)) st)).
  apply R_logger.
Qed.

Lemma follows_start : follows R start.
Proof.
  unfold KurobbsClient.start.
  apply follows_bind; [apply follows_process, follows_checkin | ].
  intros _. apply follows_bind; [ | intros _; apply follows_log].
  apply follows_process. intros st. apply R_request.
Qed.

End Follows.

(** ** The error collection over a run *)

Lemma grows_start : follows grows start.
Proof.
  apply follows_start.
  - intros st. exists []. rewrite app_nil_r. reflexivity.
  - intros a b c [es1 H1] [es2 H2]. exists (es1 ++ es2)%list.
    rewrite H2, H1, app_assoc. reflexivity.
  - intros u d st. exists []. rewrite make_request_self, app_nil_r.
    reflexivity.
  - intros l s st. exists []. cbn. rewrite app_nil_r. reflexivity.
  - intros e st. exists [e]. reflexivity.
  - intros k v st. exists []. cbn. rewrite app_nil_r. reflexivity.
Qed.

(** X10: [start] never removes an error from the collection, and on a
    client whose collection is not empty it never returns normally. *)
Theorem start_errors_persist (st : state) :
  (exists es,
      exceptions (self (snd (start st)))
      = (exceptions (self st) ++ es)%list)
  /\ (exceptions (self st) <> [] -> fst (start st) <> Ok tt).
Proof.
  pose proof (grows_start st) as G. split; [exact G | ].
  intros Hne Hok. destruct G as [es G].
  destruct (start st) as [out st'] eqn:E. cbn [fst snd] in *. subst out.
  destruct (start_reaches_log _ _ _ _ _ _ E)
    as (r1 & st1 & r2 & st2 & _ & _ & L).
  { intros e H. discriminate H. }
  cbv zeta in L. rewrite log_eq in L. inversion L as [[Ho Hst]].
  rewrite <- Hst in G. cbn [self] in G.
  destruct (exceptions (self (if truthy_flag (Response.success r2)
                              then _ else _))) as [ | e0 l0];
    [ | discriminate Ho].
  symmetry in G. apply app_eq_nil in G. destruct G as [G _]. contradiction.
Qed.

(** ** The log over a run *)

Lemma emit_extends (l : level) (s : string) (p : proc) :
  sink_debug (emit l s p) = sink_debug p
  /\ exists new,
      logged (emit l s p) = (logged p ++ new)%list
      /\ (sink_debug p = false -> Forall (fun r => lvl r <> DEBUG) new).
Proof.
  unfold emit. destruct (reaches_sink (sink_debug p) l) eqn:E.
  - split; [reflexivity | ]. exists [mkLog l s]. split; [reflexivity | ].
    intros H. rewrite H in E. constructor; [ | constructor].
    cbn. destruct l; [discriminate E | discriminate | discriminate].
  - split; [reflexivity | ]. exists []. rewrite app_nil_r. auto.
Qed.

Lemma log_extends_same (a b : state) :
  sink_debug (io b) = sink_debug (io a) ->
  logged (io b) = logged (io a) ->
  log_extends a b.
Proof.
  intros S L. split; [exact S | ]. exists []. rewrite app_nil_r. auto.
Qed.

Lemma log_extends_refl (st : state) : log_extends st st.
Proof. apply log_extends_same; reflexivity. Qed.

Lemma log_extends_trans (a b c : state) :
  log_extends a b -> log_extends b c -> log_extends a c.
Proof.
  intros (S1 & n1 & L1 & F1) (S2 & n2 & L2 & F2).
  split; [congruence | ]. exists (n1 ++ n2)%list. split.
  - rewrite L2, L1, app_assoc. reflexivity.
  - intros H. apply Forall_app. split; [auto | ]. apply F2. congruence.
Qed.

Lemma log_extends_logger (l : level) (s : string) :
  follows log_extends (logger l s).
Proof. intros st. apply emit_extends. Qed.

Lemma log_extends_bark (m : string) :
  follows log_extends (send_bark_notification m).
Proof. intros st. apply log_extends_same; reflexivity. Qed.

Lemma log_extends_start : follows log_extends start.
Proof.
  apply follows_start.
  - apply log_extends_refl.
  - apply log_extends_trans.
  - intros u d st. rewrite make_request_eq. cbv zeta.
    destruct (server _ _); try (apply log_extends_same; reflexivity).
    apply (emit_extends DEBUG (dump r)
             (after_post (mkRequest u (headers_of (token (self st))) d)
                         (io st))).
  - apply log_extends_logger.
  - intros e st. apply log_extends_same; reflexivity.
  - intros k v st. apply log_extends_same; reflexivity.
Qed.

(** [main], by what [start] did. *)
Lemma main_eq (tok dbg : option string) (p : proc) :
  main server beijing_month dump_json tok dbg p =
  match start (mkState (KurobbsClient.init tok)
                       (configure_logger (truthy_env dbg) p)) with
  | (Ok _, st1) => (0, snd (send_bark_notification (msg (self st1)) st1))
  | (Raise e, st1) =>
      (1,
       if is_client_error e
       then snd (send_bark_notification
                   "签到任务失败!" (snd (logger ERROR (str_exn e) st1)))
       else snd (logger ERROR
                        ("An unexpected error occurred: " ++ str_exn e) st1))
  end.
Proof.
  unfold main, main_try. unfold bind at 1.
  destruct (start _) as [[[] | e] st1].
  - unfold bind, get_self. unfold KurobbsClient.msg at 1.
    rewrite truthy_str_bang. reflexivity.
  - destruct (is_client_error e); reflexivity.
Qed.

(** X12: the sink [main] leaves behind lets DEBUG records through exactly
    when DEBUG is set to a non-empty string; when it is unset or empty, no
    record [main] adds to the log is a DEBUG record. *)
Theorem debug_records_need_debug_env (tok dbg : option string) (p : proc) :
  let final := io (snd (main server beijing_month dump_json tok dbg p)) in
  (sink_debug final = true <-> exists s, dbg = Some s /\ s <> "")
  /\ (truthy_env dbg = false ->
      exists new,
        logged final = (logged p ++ new)%list
        /\ Forall (fun r => lvl r <> DEBUG) new).
Proof.
  cbv zeta. rewrite main_eq.
  pose proof (log_extends_start
                (mkState (KurobbsClient.init tok)
                         (configure_logger (truthy_env dbg) p))) as E.
  destruct (start _) as [out st1]. cbn [snd] in E.
  assert (X : exists st2,
             snd (match out with
                  | Ok _ =>
                      (0, snd (send_bark_notification (msg (self st1)) st1))
                  | Raise e =>
                      (1,
                       if is_client_error e
                       then snd (send_bark_notification
                                   "签到任务失败!"
                                   (snd (logger ERROR (str_exn e) st1)))
                       else snd (logger ERROR
                                        ("An unexpected error occurred: "
                                           ++ str_exn e) st1))
                  end) = st2
             /\ log_extends st1 st2).
  { destruct out as [u | e]; cbn [snd].
    - eexists. split; [reflexivity | ]. apply log_extends_bark.
    - destruct (is_client_error e); eexists; (split; [reflexivity | ]).
      + eapply log_extends_trans;
          [apply (log_extends_logger ERROR (str_exn e) st1) | ].
        apply log_extends_bark.
      + apply (log_extends_logger ERROR _ st1). }
  destruct X as (st2 & -> & E2).
  destruct (log_extends_trans _ _ _ E E2) as (S & new & L & F).
  cbn [io configure_logger sink_debug logged] in S, L, F. split.
  - rewrite S. destruct dbg as [[ | a s] | ]; cbn; split;
      try discriminate; try (intros (s' & H & N); congruence).
    intros _. exists (String a s). split; [reflexivity | discriminate].
  - intros H. exists new. split; [exact L | apply F, H].
Qed.


(** X2: when [start] raises anything but a client error (a transport,
    decode or attribute error), [main] logs "An unexpected error
    occurred: " followed by the error's text at ERROR, notifies nobody, and
    ends with status 1. *)
Theorem main_unexpected_failure_is_silent
        (tok dbg : option string) (p : proc) (e : exn) (st1 : state) :
  start (mkState (KurobbsClient.init tok)
                 (configure_logger (truthy_env dbg) p))
  = (Raise e, st1) ->
  is_client_error e = false ->
  main server beijing_month dump_json tok dbg p
  = (1,
     mkState (self st1)
             (mkProc (posted (io st1))
                     (logged (io st1)
                        ++ [mkLog ERROR ("An unexpected error occurred: "
                                           ++ str_exn e)])
                     (sink_debug (io st1))
                     (barks p))).
Proof.
  intros Hs K.
  pose proof (frame_start server beijing_month dump_json
                (mkState (KurobbsClient.init tok)
                         (configure_logger (truthy_env dbg) p))) as F.
  rewrite Hs in F. unfold frame in F. cbn in F.
  assert (B : barks (io st1) = barks p) by congruence.
  rewrite main_eq, Hs, K. cbn. rewrite B. reflexivity.
Qed.

(** X3: [start] hands nothing to the notifier and changes neither the
    level of the log sink nor the client's token. *)
Theorem start_never_notifies (st : state) :
  barks (io (snd (start st))) = barks (io st)
  /\ sink_debug (io (snd (start st))) = sink_debug (io st)
  /\ token (self (snd (start st))) = token (self st).
Proof.
  pose proof (frame_start server beijing_month dump_json st) as F.
  unfold frame in F. inversion F. auto.
Qed.

(** ** The requests of a run *)




(** ** The keys of [result] *)





(** ** Exceptions [checkin] does not convert *)

Lemma start_checkin_raise (st st1 : state) (e : exn) :
  checkin st = (Raise e, st1) -> start st = (Raise e, st1).
Proof.
  intros C. rewrite start_eq, process_sign_action_eq, C. reflexivity.
Qed.

(** X6: an exception that escapes [checkin] ends the run at once: [start]
    raises the same exception in the state [checkin] left, so the sign-in
    request is not posted, nothing is recorded and no summary is logged;
    such an exception is never a client error. *)
Theorem checkin_exception_aborts_run (st st1 : state) (e : exn) :
  checkin st = (Raise e, st1) ->
  start st = (Raise e, st1) /\ is_client_error e = false.
Proof.
  intros C. split.
  - apply start_checkin_raise, C.
  - eapply checkin_raise, C.
Qed.

(** X9: a role lookup that fails in transport or comes back with a body
    that does not decode is not caught by [checkin]: it raises the
    [requests] or validation error, appends nothing to the error collection
    and posts nothing further. *)
Theorem checkin_lets_transport_errors_through (st : state) (m : string) :
  let rq := lookup_request (token (self st)) 3 in
  (server (posted (io st)) rq = Unreachable m ->
   checkin st
   = (Raise (RequestException m), mkState (self st) (after_post rq (io st))))
  /\ (server (posted (io st)) rq = Malformed m ->
      checkin st
      = (Raise (ValidationError m),
         mkState (self st) (after_post rq (io st)))).
Proof.
  cbv zeta. split; intros H;
    rewrite checkin_eq, get_user_game_list_eq; cbv zeta; rewrite H;
    reflexivity.
Qed.

(** X8: when the lookup is answered with code 200 and a list whose first
    element is not a dict, [checkin] raises the attribute error for the
    missing [get] method of that element's type; the reward request is not
    posted and nothing is appended to the error collection. *)
Theorem checkin_rejects_non_dict_role
        (st : state) (r : Response.t) (x : pyval) (rest : list pyval) :
  server (posted (io st)) (lookup_request (token (self st)) 3) = Replied r ->
  Response.code r = 200 ->
  Response.data r = PyList (x :: rest) ->
  (forall items, x <> PyDict items) ->
  checkin st
  = (Raise (AttributeError
              ("'" ++ type_name x ++ "' object has no attribute 'get'")),
     answered (lookup_request (token (self st)) 3) (dump r) st).
Proof.
  intros Hr Hc Hd Hx.
  rewrite checkin_eq, get_user_game_list_eq. cbv zeta.
  rewrite Hr, Hc, Hd. cbn [negb Z.eqb Pos.eqb].
  unfold bind, lift.
  destruct x; try reflexivity.
  exfalso. eapply Hx. reflexivity.
Qed.

(** X15: [get_user_game_list] returns a list exactly when its request is
    answered by an envelope with code 200 whose payload is a non-empty
    list; the list returned is that payload, whole. *)
Theorem get_user_game_list_returns_payload
        (game_id : Z) (st st' : state) (l : list pyval) :
  get_user_game_list game_id st = (Ok l, st')
  <-> exists r,
      server (posted (io st)) (lookup_request (token (self st)) game_id)
      = Replied r
      /\ Response.code r = 200
      /\ Response.data r = PyList l
      /\ l <> []
      /\ st' = answered (lookup_request (token (self st)) game_id)
                        (dump r) st.
Proof.
  rewrite get_user_game_list_eq. cbv zeta. split.
  - destruct (server _ _) as [r | m | m]; try discriminate.
    destruct (Response.code r =? 200) eqn:E; cbn [negb]; try discriminate.
    apply Z.eqb_eq in E.
    destruct (Response.data r) as [ | | | | | [ | x l'] | ] eqn:D;
      try discriminate.
    intros H. inversion H. subst. exists r.
    repeat split; try assumption; discriminate.
  - intros (r & Hr & Hc & Hd & Hl & ->). rewrite Hr, Hc, Hd. cbn.
    destruct l; [contradiction | reflexivity].
Qed.


Lemma lookup_ok_reply
      (game_id : Z) (st st' : state) (x : pyval) (l : list pyval) :
  get_user_game_list game_id st = (Ok (x :: l), st') ->
  exists r,
    server (posted (io st)) (lookup_request (token (self st)) game_id)
    = Replied r
    /\ Response.code r = 200
    /\ Response.data r = PyList (x :: l).
Proof.
  rewrite get_user_game_list_eq. cbv zeta.
  destruct (server _ _) as [r | m | m]; try discriminate.
  destruct (Response.code r =? 200) eqn:E; cbn [negb]; try discriminate.
  apply Z.eqb_eq in E.
  destruct (Response.data r) as [ | | | | | [ | y l'] | ] eqn:D;
    try discriminate.
  intros H. inversion H. subst. exists r. auto.
Qed.

Lemma checkin_trace (st : state) :
  posted (io (snd (checkin st)))
  = (posted (io st) ++ [lookup_request (token (self st)) 3])%list
  \/ exists r x rest d,
      server (posted (io st)) (lookup_request (token (self st)) 3)
      = Replied r
      /\ Response.code r = 200
      /\ Response.data r = PyList (x :: rest)
      /\ checkin_form x = Ok d
      /\ posted (io (snd (checkin st)))
         = (posted (io st)
              ++ [ lookup_request (token (self st)) 3;
                   reward_request (token (self st)) d ])%list.
Proof.
  pose proof (get_user_game_list_posted server dump_json 3 st) as P.
  pose proof (get_user_game_list_self server dump_json 3 st) as Sf.
  rewrite checkin_eq.
  destruct (get_user_game_list 3 st) as [[[ | x l] | e] st1] eqn:L;
    cbn [snd] in *.
  - left. exact P.
  - unfold bind, lift. destruct (checkin_form x) as [d | e] eqn:F.
    + right. apply lookup_ok_reply in L.
      destruct L as (r & Hr & Hc & Hd).
      exists r, x, l, d. repeat split; try assumption.
      rewrite make_request_posted, P, Sf, <- app_assoc. reflexivity.
    + left. exact P.
  - left. destruct (is_client_error e); exact P.
Qed.

(** X4: the requests of a run come in a fixed order.  [start] first posts
    the role lookup for game 3; after it come at most the reward request
    and then the sign-in request.  The reward request is posted only when
    the lookup was answered with code 200 and a non-empty list whose first
    element gave its form. *)
Theorem start_posts_in_order (st : state) :
  let tok := token (self st) in
  exists tail,
    posted (io (snd (start st)))
    = (posted (io st) ++ lookup_request tok 3 :: tail)%list
    /\ (tail = [] \/ tail = [sign_in_request tok]
        \/ exists r x rest d,
            server (posted (io st)) (lookup_request tok 3) = Replied r
            /\ Response.code r = 200
            /\ Response.data r = PyList (x :: rest)
            /\ checkin_form x = Ok d
            /\ (tail = [reward_request tok d]
                \/ tail = [reward_request tok d; sign_in_request tok])).
Proof.
  cbv zeta. pose proof (checkin_trace st) as T.
  destruct (checkin st) as [[r1 | e] st1] eqn:C; cbn [snd] in T.
  - rewrite (start_posted _ _ _ _ _ _ C).
    destruct T as [T | (r & x & rest & d & Hr & Hc & Hd & F & T)];
      rewrite T, <- app_assoc; cbn [app]; eexists; (split; [reflexivity | ]).
    + right. left. reflexivity.
    + right. right. exists r, x, rest, d. auto 10.
  - rewrite (start_checkin_raise _ _ _ C). cbn [snd].
    destruct T as [T | (r & x & rest & d & Hr & Hc & Hd & F & T)];
      rewrite T; cbn [app]; eexists; (split; [reflexivity | ]).
    + left. reflexivity.
    + right. right. exists r, x, rest, d. auto 10.
Qed.

(** ** When a run succeeds *)

Lemma checkin_ok_exceptions (st st1 : state) (r : Response.t) :
  checkin st = (Ok r, st1) ->
  truthy_flag (Response.success r) = true ->
  exceptions (self st1) = exceptions (self st).
Proof.
  pose proof (get_user_game_list_self server dump_json 3 st) as Sf.
  rewrite checkin_eq.
  destruct (get_user_game_list 3 st) as [[[ | x l] | e] s] eqn:L;
    cbn [snd] in Sf; try discriminate.
  - unfold bind, lift. destruct (checkin_form x) as [d | e]; try discriminate.
    intros H _.
    pose proof (make_request_self server dump_json KurobbsClient.SIGN_URL
                                  d s) as M.
    rewrite H in M. cbn [snd] in M. congruence.
  - destruct (is_client_error e); try discriminate.
    intros H T. inversion H. subst. discriminate T.
Qed.

(** X11: on a client with no error collected yet, [start] returns normally
    exactly when [checkin] returns an envelope with a truthy success flag
    and the sign-in request is then answered by an envelope with a truthy
    success flag. *)
Theorem start_returns_iff_both_succeed (st : state) :
  exceptions (self st) = [] ->
  fst (start st) = Ok tt
  <-> exists r1 st1 r2,
      checkin st = (Ok r1, st1)
      /\ truthy_flag (Response.success r1) = true
      /\ server (posted (io st1)) (sign_in_request (token (self st)))
         = Replied r2
      /\ truthy_flag (Response.success r2) = true.
Proof.
  intros Hnil.
  pose proof (checkin_token server beijing_month dump_json st) as T.
  split.
  - intros Hok. destruct (start st) as [out st'] eqn:E.
    cbn [fst] in Hok. subst out.
    destruct (start_reaches_log _ _ _ _ _ _ E)
      as (r1 & st1 & r2 & st2 & C & S & L).
    { intros e H. discriminate H. }
    cbv zeta in S, L. rewrite C in T. cbn [snd] in T.
    apply make_request_ok in S. cbv zeta in S. destruct S as [S1 S2].
    rewrite log_eq in L. inversion L as [[Ho Hst]]. clear L Hst.
    subst st2. exists r1, st1, r2.
    destruct (truthy_flag (Response.success r1)) eqn:T1;
      destruct (truthy_flag (Response.success r2)) eqn:T2;
      cbn [self exceptions with_exception with_result answered] in Ho.
    + repeat split; try assumption.
      cbn in S1. rewrite T in S1. exact S1.
    + destruct (exceptions (self st1)); discriminate Ho.
    + destruct (exceptions (self st1)); discriminate Ho.
    + destruct (exceptions (self st1)); discriminate Ho.
  - intros (r1 & st1 & r2 & C & T1 & Hr & T2).
    rewrite C in T. cbn [snd] in T.
    pose proof (checkin_ok_exceptions _ _ _ C T1) as X.
    rewrite start_eq, process_sign_action_eq, C, T1.
    rewrite process_sign_action_eq.
    unfold KurobbsClient.sign_in. rewrite make_request_eq. cbv zeta.
    cbn [with_result self io token]. unfold sign_in_request in Hr.
    rewrite T, Hr, T2, log_eq.
    cbn [self exceptions with_result answered fst].
    rewrite X, Hnil. reflexivity.
Qed.

End Beyond.

(** ** The month field *)

Lemma str_int_nonempty (n : Z) : str_int n <> "".
Proof.
  unfold str_int. destruct n as [ | q | q]; cbn.
  - discriminate.
  - destruct (Pos.to_uint q); discriminate.
  - discriminate.
Qed.

Lemma fmt_02d_month (n : Z) :
  1 <= n <= 12 ->
  String.length (fmt_02d n) = 2%nat /\ decode_decimal (fmt_02d n) = Some n.
Proof.
  intros H.
  assert (C : n = 1 \/ n = 2 \/ n = 3 \/ n = 4 \/ n = 5 \/ n = 6 \/ n = 7
              \/ n = 8 \/ n = 9 \/ n = 10 \/ n = 11 \/ n = 12) by lia.
  repeat (destruct C as [-> | C]; [split; reflexivity | ]).
  subst n. split; reflexivity.
Qed.

(** X13: [f"{n:02d}"] is never shorter than two characters; for a month
    from 1 to 12 the form [checkin] builds from a dict holds under
    "reqMonth" a string of exactly two characters that reads back, as a
    decimal numeral, as that month. *)
Theorem req_month_two_digits
        (month : Z) (items : list (string * pyval)) :
  (forall n, (2 <= String.length (fmt_02d n))%nat)
  /\ (1 <= month <= 12 ->
      exists d s,
        KurobbsClient.checkin_form month (PyDict items) = Ok d
        /\ dict_lookup "reqMonth" d = Some (PyStr s)
        /\ String.length s = 2%nat
        /\ decode_decimal s = Some month).
Proof.
  split.
  - intros n. unfold fmt_02d.
    destruct (String.length (str_int n) <? 2)%nat eqn:E.
    + pose proof (str_int_nonempty n) as N.
      destruct (str_int n); [contradiction | cbn; lia].
    + apply Nat.ltb_ge in E. exact E.
  - intros H. destruct (fmt_02d_month month H) as [L D].
    do 2 eexists. split; [reflexivity | ]. split; [reflexivity | ].
    split; assumption.
Qed.

(** * The further statements at scripted runs *)


Lemma main_unexpected_failure_is_silent_witness :
  fst (main lookup_unreachable 7 plain_dump (Some "token") None fresh_proc)
  = 1
  /\ barks (io (snd (main lookup_unreachable 7 plain_dump (Some "token")
                          None fresh_proc)))
     = [].
Proof.
  rewrite (main_unexpected_failure_is_silent
             lookup_unreachable 7 plain_dump (Some "token") None fresh_proc
             (RequestException "connection timed out")
             (snd (KurobbsClient.start
                     lookup_unreachable 7 plain_dump
                     (mkState (KurobbsClient.init (Some "token"))
                              (configure_logger (truthy_env None)
                                                fresh_proc))))).
  - split; reflexivity.
  - reflexivity.
  - reflexivity.
Defined.


Lemma checkin_exception_aborts_run_witness :
  map url (posted (io (snd (KurobbsClient.start lookup_unreachable 7
                                                plain_dump demo_state))))
  = [KurobbsClient.FIND_ROLE_LIST_API_URL].
Proof.
  destruct (checkin_exception_aborts_run
              lookup_unreachable 7 plain_dump demo_state
              (snd (KurobbsClient.checkin lookup_unreachable 7 plain_dump
                                          demo_state))
              (RequestException "connection timed out"))
    as [W _].
  - reflexivity.
  - rewrite W. reflexivity.
Defined.


Lemma checkin_rejects_non_dict_role_witness :
  fst (KurobbsClient.checkin odd_roles 7 plain_dump demo_state)
  = Raise (AttributeError "'int' object has no attribute 'get'").
Proof.
  rewrite (checkin_rejects_non_dict_role
             odd_roles 7 plain_dump demo_state
             (Response.mk 200 "ok" None (PyList [PyInt 7])) (PyInt 7) []).
  - reflexivity.
  - reflexivity.
  - reflexivity.
  - reflexivity.
  - intros items H. discriminate H.
Defined.

Lemma checkin_lets_transport_errors_through_witness :
  fst (KurobbsClient.checkin lookup_unreachable 7 plain_dump demo_state)
  = Raise (RequestException "connection timed out")
  /\ exceptions (self (snd (KurobbsClient.checkin lookup_unreachable 7
                                                  plain_dump demo_state)))
     = [].
Proof.
  destruct (checkin_lets_transport_errors_through
              lookup_unreachable 7 plain_dump demo_state
              "connection timed out")
    as [W _].
  rewrite W.
  - split; reflexivity.
  - reflexivity.
Defined.

Lemma start_errors_persist_witness :
  fst (KurobbsClient.start all_good 7 plain_dump stale_state) <> Ok tt.
Proof.
  destruct (start_errors_persist all_good 7 plain_dump stale_state)
    as [_ W].
  apply W. cbn. discriminate.
Defined.

Lemma start_returns_iff_both_succeed_witness :
  fst (KurobbsClient.start all_good 7 plain_dump demo_state) = Ok tt.
Proof.
  apply (start_returns_iff_both_succeed all_good 7 plain_dump demo_state).
  - reflexivity.
  - exists (Response.mk 200 "ok" (Some true) PyNone),
      (snd (KurobbsClient.checkin all_good 7 plain_dump demo_state)),
      (Response.mk 200 "ok" (Some true) PyNone).
    repeat split; reflexivity.
Defined.

Lemma debug_records_need_debug_env_witness :
  exists new,
    logged (io (snd (main all_good 7 plain_dump (Some "token") (Some "")
                          fresh_proc)))
    = (logged fresh_proc ++ new)%list
    /\ Forall (fun r => lvl r <> DEBUG) new.
Proof.
  destruct (debug_records_need_debug_env
              all_good 7 plain_dump (Some "token") (Some "") fresh_proc)
    as [_ W].
  apply W. reflexivity.
Defined.

Lemma req_month_two_digits_witness :
  exists d s,
    KurobbsClient.checkin_form 7 (role 2 11 12 13) = Ok d
    /\ dict_lookup "reqMonth" d = Some (PyStr s)
    /\ String.length s = 2%nat
    /\ decode_decimal s = Some 7.
Proof.
  destruct (req_month_two_digits
              7 [ ("gameId", PyInt 2); ("serverId", PyInt 11);
                  ("roleId", PyInt 12); ("userId", PyInt 13) ])
    as [_ W].
  apply W. lia.
Defined.


Lemma get_user_game_list_returns_payload_witness :
  fst (KurobbsClient.get_user_game_list all_good plain_dump 3 demo_state)
  = Ok [role 2 11 12 13; role 3 21 22 23].
Proof.
  destruct (get_user_game_list_returns_payload
              all_good plain_dump 3 demo_state
              (answered (lookup_request (Some "token") 3) "200 ok"
                        demo_state)
              [role 2 11 12 13; role 3 21 22 23])
    as [_ W].
  rewrite W.
  - reflexivity.
  - exists (Response.mk 200 "ok" None two_roles).
    repeat split; try reflexivity. discriminate.
Defined.
